(** * Perplexity search MCP server: the tool handlers and the start-up check

    A shallow embedding of [src/index.ts] (the script variant that binds an
    HTTP event stream) and of the class variant [PerplexityServer] (bound to
    standard input/output).  The two files register the same two request
    handlers; they differ in the statements that run after the model check.

    Conventions of the embedding
    - values that reach the program from upstream (the body of a resolved
      response, the body of a failed one) and the outbound payload are
      values of [JsVal]: a type assertion on them is erased when the program
      runs;
    - the tool arguments keep the shape the handler destructures,
      [{query: string; search_recency_filter?: string}];
    - an [async] handler is a computation in the monad [M]: it reads the
      world (the environment and the answer of the HTTP client), appends the
      effects it performs to a trace, and either returns or throws. *)

From Stdlib Require Import String Ascii List ZArith Lia Bool.
From Stdlib Require Import Numbers.DecimalString.
Import ListNotations.
Local Open Scope string_scope.
Local Open Scope Z_scope.

Set Warnings "-register-all".

(** ** JavaScript values *)

Module Js.

(** A finite decimal [num_mant * 10 ^ (- num_frac)].  The numbers of the
    program (8192 and 0.2) and the numbers of a JSON text are of this form. *)
Record JsNumber : Type := mkNum { num_mant : Z; num_frac : nat }.

Definition num_of_Z (z : Z) : JsNumber := mkNum z 0.

Inductive JsVal : Type :=
| JUndefined
| JNull
| JBool (b : bool)
| JNum (n : JsNumber)
| JStr (s : string)
| JArr (elems : list JsVal)
| JObj (props : list (string * JsVal)).

(** What the program can throw or be rejected with. *)
Inductive ErrorCode : Type := MethodNotFound.

(** An HTTP-layer error: its own message, and the body of the response if
    there was one ([None] when [response] is [undefined]). *)
Record AxiosError : Type := mkAxiosError {
  ae_message : string;
  ae_response_data : option JsVal          (* response?.data *)
}.

Inductive Exn : Type :=
| TypeError (reading : string)
| PlainError (msg : string)
| McpError (code : ErrorCode) (msg : string)
| AxiosErr (e : AxiosError)
| OtherThrown (v : JsVal)
| CannotConvert          (* TypeError: Cannot convert object to primitive value *)
| ReferenceError (name : string).

Inductive Outcome (A : Type) : Type :=
| Return (a : A)
| Throw (e : Exn).
Arguments Return {A} a.
Arguments Throw {A} e.

(** *** Strings of digits *)

Definition string_of_nat (n : nat) : string :=
  NilZero.string_of_uint (Nat.to_uint n).

Definition string_of_Z (z : Z) : string :=
  NilZero.string_of_int (Z.to_int z).

Fixpoint zeros (n : nat) : string :=
  match n with
  | O => ""
  | S k => String "0" (zeros k)
  end.

(** Number::toString for a finite decimal in plain (non exponent) notation:
    the integer digits, and after a point the [num_frac] fraction digits.
    It is the JavaScript text of the number when the mantissa does not end
    in 0 (or [num_frac] is 0) and the magnitude is one that JavaScript prints
    without an exponent. *)
Definition number_to_string (n : JsNumber) : string :=
  match num_frac n with
  | O => string_of_Z (num_mant n)
  | frac =>
      let digits := string_of_nat (Z.abs_nat (num_mant n)) in
      let padded := zeros (S frac - String.length digits) ++ digits in
      let cut := (String.length padded - frac)%nat in
      (if num_mant n <? 0 then "-" else "")
        ++ substring 0 cut padded ++ "." ++ substring cut frac padded
  end.

(** *** Property reads *)

Fixpoint lookup (key : string) (props : list (string * JsVal)) : option JsVal :=
  match props with
  | [] => None
  | (k, v) :: rest => if String.eqb k key then Some v else lookup key rest
  end.

Definition has_property (key : string) (v : JsVal) : bool :=
  match v with
  | JObj props => match lookup key props with Some _ => true | None => false end
  | _ => false
  end.

(** [v.key] for a key that no built-in prototype defines (the program reads
    [choices], [message], [content] and [citations]).  Reading a property of
    [undefined] or [null] throws; any other value that lacks the property
    gives [undefined]. *)
Definition js_get (v : JsVal) (key : string) : Outcome JsVal :=
  match v with
  | JUndefined | JNull => Throw (TypeError key)
  | JObj props =>
      match lookup key props with
      | Some x => Return x
      | None => Return JUndefined
      end
  | _ => Return JUndefined
  end.

(** [v[i]] for an array index [i]. *)
Definition js_get_index (v : JsVal) (i : nat) : Outcome JsVal :=
  match v with
  | JUndefined | JNull => Throw (TypeError (string_of_nat i))
  | JArr elems => Return (nth i elems JUndefined)
  | JStr s =>
      match String.get i s with
      | Some c => Return (JStr (String c ""))
      | None => Return JUndefined
      end
  | JObj props =>
      match lookup (string_of_nat i) props with
      | Some x => Return x
      | None => Return JUndefined
      end
  | _ => Return JUndefined
  end.

(** ToBoolean. *)
Definition truthy (v : JsVal) : bool :=
  match v with
  | JUndefined | JNull => false
  | JBool b => b
  | JNum n => negb (num_mant n =? 0)
  | JStr s => negb (String.eqb s "")
  | JArr _ | JObj _ => true
  end.

(** [a || b] on values. *)
Definition js_or (a b : JsVal) : JsVal := if truthy a then a else b.

(** [v?.key] for a key that no built-in prototype defines. *)
Definition optional_get (v : JsVal) (key : string) : JsVal :=
  match v with
  | JObj props =>
      match lookup key props with
      | Some x => x
      | None => JUndefined
      end
  | _ => JUndefined
  end.

(** *** JSON.stringify (value, null, 2) *)

Definition dquote : string := String (ascii_of_nat 34) "".
Definition newline : string := String (ascii_of_nat 10) "".
Definition gap : string := "  ".

Definition hex_digit (n : nat) : ascii :=
  nth n ["0"; "1"; "2"; "3"; "4"; "5"; "6"; "7"; "8"; "9";
         "a"; "b"; "c"; "d"; "e"; "f"]%char "0"%char.

(** QuoteJSONString, one code unit at a time (a character of a Rocq string
    stands for a code unit below 256, so no surrogate occurs). *)
Definition escape_char (c : ascii) : string :=
  let n := nat_of_ascii c in
  if (n =? 34)%nat then "\" ++ dquote
  else if (n =? 92)%nat then "\\"
  else if (n =? 8)%nat then "\b"
  else if (n =? 9)%nat then "\t"
  else if (n =? 10)%nat then "\n"
  else if (n =? 12)%nat then "\f"
  else if (n =? 13)%nat then "\r"
  else if (n <? 32)%nat then
    "\u00" ++ String (hex_digit (n / 16)) (String (hex_digit (n mod 16)) "")
  else String c "".

Fixpoint escape (s : string) : string :=
  match s with
  | EmptyString => ""
  | String c rest => escape_char c ++ escape rest
  end.

Definition quote (s : string) : string := dquote ++ escape s ++ dquote.

Fixpoint join (sep : string) (items : list string) : string :=
  match items with
  | [] => ""
  | [x] => x
  | x :: rest => x ++ sep ++ join sep rest
  end.

(** ToString of a value; [None] when the conversion throws.  An object
    parsed from JSON has no callable property: if it has a [toString] key of
    its own, neither [toString] nor [valueOf] yields a primitive and the
    conversion throws; otherwise Object.prototype.toString answers.  An array
    is joined with commas, its [undefined] and [null] elements as empty
    strings. *)
Fixpoint js_to_string (v : JsVal) : option string :=
  match v with
  | JUndefined => Some "undefined"
  | JNull => Some "null"
  | JBool b => Some (if b then "true" else "false")
  | JNum n => Some (number_to_string n)
  | JStr s => Some s
  | JArr elems =>
      match (fix each (l : list JsVal) : option (list string) :=
               match l with
               | [] => Some []
               | x :: rest =>
                   match (match x with
                          | JUndefined | JNull => Some ""
                          | _ => js_to_string x
                          end), each rest with
                   | Some s, Some others => Some (s :: others)
                   | _, _ => None
                   end
               end) elems with
      | Some items => Some (join "," items)
      | None => None
      end
  | JObj props =>
      match lookup "toString" props with
      | Some _ => None
      | None => Some "[object Object]"
      end
  end.

(** A value inside a template literal. *)
Definition template (v : JsVal) : Outcome string :=
  match js_to_string v with
  | Some s => Return s
  | None => Throw CannotConvert
  end.

Definition bracket (opening closing indent : string) (items : list string)
  : string :=
  match items with
  | [] => opening ++ closing
  | _ =>
      let inner := indent ++ gap in
      opening ++ newline ++ inner
        ++ join ("," ++ newline ++ inner) items
        ++ newline ++ indent ++ closing
  end.

(** SerializeJSONProperty at the indentation [indent]; [None] is the
    [undefined] result, which an array prints as [null] and an object leaves
    out together with its key. *)
Fixpoint stringify_at (indent : string) (v : JsVal) : option string :=
  match v with
  | JUndefined => None
  | JNull => Some "null"
  | JBool b => Some (if b then "true" else "false")
  | JNum n => Some (number_to_string n)
  | JStr s => Some (quote s)
  | JArr elems =>
      Some (bracket "[" "]" indent
              (map (fun e =>
                      match stringify_at (indent ++ gap) e with
                      | Some s => s
                      | None => "null"
                      end) elems))
  | JObj props =>
      Some (bracket "{" "}" indent
              (flat_map (fun '(k, x) =>
                           match stringify_at (indent ++ gap) x with
                           | Some s => [quote k ++ ": " ++ s]
                           | None => []
                           end) props))
  end.

(** [JSON.stringify(v, null, 2)] of an object or array [v] (never
    [undefined] for those). *)
Definition JSON_stringify (v : JsVal) : string :=
  match stringify_at "" v with
  | Some s => s
  | None => "undefined"
  end.

End Js.

Import Js.

(** ** Effects: the world, the trace and the monad of the handlers *)

Inductive RequestSchema : Type := ListToolsRequestSchema | CallToolRequestSchema.

Inductive Transport : Type := StdioServerTransport.

Inductive Event : Type :=
| LoadDotenv                                        (* dotenv.config() *)
| ConsoleError (line : string)                      (* console.error(line) *)
| HttpPost (url : string) (payload : JsVal)
           (headers : list (string * string))       (* axios.post(...) *)
| NewServer (name version : string)                 (* new Server(...) *)
| SetRequestHandler (schema : RequestSchema)
| SetOnError                                        (* server.onerror = ... *)
| OnSignal (signal : string)                        (* process.on(signal, ...) *)
| Connect (transport : Transport).                  (* server.connect(...) *)

(** How the promise of [axios.post] settles: resolved with the body of a
    response whose status is 2xx, or rejected (with an HTTP-layer error for
    any other status or a transport failure, or with whatever else was
    thrown on the way).  A promise that never settles is not modelled. *)
Inductive AxiosOutcome : Type :=
| Resolved (data : JsVal)
| Rejected (e : Exn).

Record World : Type := mkWorld {
  argv : list string;                               (* process.argv *)
  PERPLEXITY_API_KEY : option string;               (* process.env.... *)
  axios_post : string -> JsVal -> list (string * string) -> AxiosOutcome
}.

Definition M (A : Type) : Type := World -> list Event * Outcome A.

Definition ret {A} (a : A) : M A := fun _ => ([], Return a).

Definition throw {A} (e : Exn) : M A := fun _ => ([], Throw e).

Definition lift {A} (o : Outcome A) : M A := fun _ => ([], o).

Definition bind {A B} (m : M A) (k : A -> M B) : M B :=
  fun w =>
    match m w with
    | (t, Return a) => let (t', r) := k a w in ((t ++ t')%list, r)
    | (t, Throw e) => (t, Throw e)
    end.

Notation "x <- m ;; k" := (bind m (fun x => k))
  (at level 61, m at next level, right associativity).
Notation "m ;;; k" := (bind m (fun _ => k))
  (at level 61, right associativity).

(** [try { body } catch (error) { handler }]. *)
Definition try_catch {A} (body : M A) (handler : Exn -> M A) : M A :=
  fun w =>
    match body w with
    | (t, Throw e) => let (t', r) := handler e w in ((t ++ t')%list, r)
    | done => done
    end.

Definition emit (ev : Event) : M unit := fun _ => ([ev], Return tt).

Definition console_error (line : string) : M unit := emit (ConsoleError line).

Definition read_argv : M (list string) := fun w => ([], Return (argv w)).

Definition read_api_key : M (option string) :=
  fun w => ([], Return (PERPLEXITY_API_KEY w)).

(** [await axios.post(url, payload, {headers})]. *)
Definition await_axios_post (url : string) (payload : JsVal)
    (headers : list (string * string)) : M JsVal :=
  fun w =>
    ([HttpPost url payload headers],
     match axios_post w url payload headers with
     | Resolved data => Return data
     | Rejected e => Throw e
     end).

(** [axios.isAxiosError(error)]. *)
Definition isAxiosError (error : Exn) : bool :=
  match error with
  | AxiosErr _ => true
  | _ => false
  end.

(** A value of type [string | undefined] inside a template literal. *)
Definition template_of (s : option string) : string :=
  match s with
  | Some x => x
  | None => "undefined"
  end.

(** ** The constants of the server *)

Definition maxTokens : JsNumber := num_of_Z 8192.
Definition temperature : JsNumber := mkNum 2 1.      (* 0.2 *)
Definition endpoint : string := "https://api.perplexity.ai/chat/completions".
Definition recognized_models : list string := ["sonar"; "sonar-pro"].

(** ** The list-tools handler *)

Record ToolDescriptor : Type := mkTool {
  tool_name : string;
  tool_description : string;
  inputSchema : JsVal
}.

Definition search_tool : ToolDescriptor :=
  mkTool "search"
    "Perform a web search using Perplexity's API, which provides detailed and contextually relevant results with citations. By default, no time filtering is applied to search results."
    (JObj [
       ("type", JStr "object");
       ("properties", JObj [
          ("query", JObj [
             ("type", JStr "string");
             ("description", JStr "The search query to perform")]);
          ("search_recency_filter", JObj [
             ("type", JStr "string");
             ("description", JStr "Filter search results by recency (options: month, week, day, hour). If not specified, no time filtering is applied.");
             ("enum", JArr [JStr "month"; JStr "week"; JStr "day"; JStr "hour"])])]);
       ("required", JArr [JStr "query"])]).

Definition list_tools_handler : M (list ToolDescriptor) :=
  ret [search_tool].

(** ** The call-tool handler *)

Record SearchArguments : Type := mkArgs {
  query : string;
  search_recency_filter : option string
}.

Record CallToolRequest : Type := mkRequest {
  params_name : string;
  params_arguments : SearchArguments
}.

Record ContentBlock : Type := mkBlock { block_type : string; text : string }.

Record CallToolResult : Type := mkResult {
  content : list ContentBlock;
  isError : option bool
}.

(** [obj.key = v] on an object that may or may not have the key. *)
Fixpoint assign (key : string) (v : JsVal) (props : list (string * JsVal))
  : list (string * JsVal) :=
  match props with
  | [] => [(key, v)]
  | (k, x) :: rest =>
      if String.eqb k key then (k, v) :: rest else (k, x) :: assign key v rest
  end.

Definition initial_payload (model : string) (query : string)
  : list (string * JsVal) :=
  [ ("model", JStr model);
    ("messages", JArr [JObj [("role", JStr "user"); ("content", JStr query)]]);
    ("max_tokens", JNum maxTokens);
    ("temperature", JNum temperature) ].

(** The payload after the optional parameter was added. *)
Definition payload (model : string) (args : SearchArguments) : JsVal :=
  let fields := initial_payload model (query args) in
  JObj (match search_recency_filter args with
        | Some filter =>
            if truthy (JStr filter)
            then assign "search_recency_filter" (JStr filter) fields
            else fields
        | None => fields                 (* undefined is falsy *)
        end).

Definition request_headers (api_key : option string) : list (string * string) :=
  [ ("Authorization", "Bearer " ++ template_of api_key);
    ("Content-Type", "application/json") ].

(** [{content: data.choices[0].message.content, citations: data.citations || []}] *)
Definition formattedResponse (data : JsVal) : Outcome JsVal :=
  match js_get data "choices" with
  | Throw e => Throw e
  | Return choices =>
  match js_get_index choices 0 with
  | Throw e => Throw e
  | Return first =>
  match js_get first "message" with
  | Throw e => Throw e
  | Return message =>
  match js_get message "content" with
  | Throw e => Throw e
  | Return message_content =>
  match js_get data "citations" with
  | Throw e => Throw e
  | Return citations =>
      Return (JObj [("content", message_content);
                    ("citations", js_or citations (JArr []))])
  end end end end end.

(** [errorData?.error || errorData?.message || axiosError.message], where
    [errorData] is [axiosError.response?.data]. *)
Definition errorMessage (axiosError : AxiosError) : JsVal :=
  let errorData :=
    match ae_response_data axiosError with
    | Some data => data
    | None => JUndefined
    end in
  js_or (js_or (optional_get errorData "error")
               (optional_get errorData "message"))
        (JStr (ae_message axiosError)).

Definition search_case (model : string) (args : SearchArguments)
  : M CallToolResult :=
  try_catch
    (console_error ("Using model: " ++ model
                    ++ ", max_tokens: " ++ number_to_string maxTokens
                    ++ ", temperature: " ++ number_to_string temperature) ;;;
     api_key <- read_api_key ;;
     data <- await_axios_post endpoint (payload model args)
               (request_headers api_key) ;;
     formatted <- lift (formattedResponse data) ;;
     ret (mkResult [mkBlock "text" (JSON_stringify formatted)] None))
    (fun error =>
       match error with
       | AxiosErr axiosError =>          (* axios.isAxiosError(error) *)
           reason <- lift (template (errorMessage axiosError)) ;;
           ret (mkResult
                  [mkBlock "text" ("Perplexity API error: " ++ reason)]
                  (Some true))
       | _ => throw error
       end).

Definition call_tool_handler (model : string) (request : CallToolRequest)
  : M CallToolResult :=
  if String.eqb (params_name request) "search"
  then search_case model (params_arguments request)
  else throw (McpError MethodNotFound
                ("Unknown tool: " ++ params_name request)).

(** ** Start-up *)

(** [argv.indexOf(x)]; [None] stands for -1. *)
Fixpoint indexOf (x : string) (l : list string) : option nat :=
  match l with
  | [] => None
  | y :: rest =>
      if String.eqb y x then Some O else option_map S (indexOf x rest)
  end.

(** [modelIndex !== -1 ? process.argv[modelIndex + 1] : 'sonar-pro']; the
    element read past the end of [argv] is [undefined], here [None]. *)
Definition select_model (args : list string) : option string :=
  match indexOf "--model" args with
  | Some modelIndex => nth_error args (modelIndex + 1)
  | None => Some "sonar-pro"
  end.

(** [['sonar', 'sonar-pro'].includes(model)] *)
Definition includes (l : list string) (model : option string) : bool :=
  match model with
  | Some m => existsb (String.eqb m) l
  | None => false
  end.

Definition invalid_model_message : string :=
  "Invalid model. Must be either " ++ dquote ++ "sonar" ++ dquote
    ++ " or " ++ dquote ++ "sonar-pro" ++ dquote.

Definition check_model (model : option string) : M string :=
  if negb (includes recognized_models model)
  then throw (PlainError invalid_model_message)
  else ret (template_of model).

(** The class variant: [new PerplexityServer()] and then [run()]. *)
Definition setupHandlers : M unit :=
  emit (SetRequestHandler ListToolsRequestSchema) ;;;
  emit (SetRequestHandler CallToolRequestSchema).

Definition setupErrorHandling : M unit :=
  emit SetOnError ;;;
  emit (OnSignal "SIGINT").

Definition PerplexityServer_constructor : M string :=
  args <- read_argv ;;
  model <- check_model (select_model args) ;;
  console_error ("Using Perplexity model: " ++ model) ;;;
  emit (NewServer "perplexity-search-server" "0.1.0") ;;;
  setupHandlers ;;;
  setupErrorHandling ;;;
  ret model.

Definition run : M unit :=
  emit (Connect StdioServerTransport) ;;;
  console_error "Perplexity Search MCP server running on stdio".

Definition main_class : M unit :=
  emit LoadDotenv ;;;
  _ <- PerplexityServer_constructor ;;
  run.

(** The script variant [src/index.ts]: the same check at top level; the
    statements that follow the first log line (the server object, the two
    handlers, the express routes and [app.listen]) are the continuation
    [rest], which receives the model. *)
Definition main_script (rest : string -> M unit) : M unit :=
  emit LoadDotenv ;;;
  args <- read_argv ;;
  model <- check_model (select_model args) ;;
  console_error ("Using Perplexity model: " ++ model) ;;;
  rest model.

(** The events by which a server comes to serve requests. *)
Definition binds_or_serves (ev : Event) : bool :=
  match ev with
  | NewServer _ _ | SetRequestHandler _ | Connect _ => true
  | _ => false
  end.

(** ** A session of requests *)

Inductive Reply : Type :=
| ResultReply (r : CallToolResult)
| ErrorReply (e : Exn).

Definition reply_of (o : Outcome CallToolResult) : Reply :=
  match o with
  | Return r => ResultReply r
  | Throw e => ErrorReply e
  end.

(** Modelled from the spec: the request loop of the protocol library, which
    is not among the sources.  A request whose handler throws is answered
    with a protocol error and the loop goes on with the next request (the
    failure terminates the individual request, not the connection). *)
Fixpoint serve (model : string) (requests : list CallToolRequest) (w : World)
  : list Event * list Reply :=
  match requests with
  | [] => ([], [])
  | request :: rest =>
      let (t, o) := call_tool_handler model request w in
      let (t', replies) := serve model rest w in
      ((t ++ t')%list, reply_of o :: replies)
  end.

(** The outbound calls of a trace. *)
Definition is_outbound (ev : Event) : bool :=
  match ev with
  | HttpPost _ _ _ => true
  | _ => false
  end.

Definition outbound_calls (t : list Event) : list Event := filter is_outbound t.

(** The field of a payload, if it has one. *)
Definition field (key : string) (v : JsVal) : option JsVal :=
  match v with
  | JObj props => lookup key props
  | _ => None
  end.

(** ** Definitions used by the statements *)

Definition gateway_answer (model : string) (args : SearchArguments) (w : World)
  : AxiosOutcome :=
  axios_post w endpoint (payload model args)
             (request_headers (PERPLEXITY_API_KEY w)).

Definition search_trace (model : string) (args : SearchArguments) (w : World)
  : list Event :=
  [ ConsoleError ("Using model: " ++ model
                  ++ ", max_tokens: " ++ number_to_string maxTokens
                  ++ ", temperature: " ++ number_to_string temperature);
    HttpPost endpoint (payload model args)
             (request_headers (PERPLEXITY_API_KEY w)) ].

Definition success_result (formatted : JsVal) : CallToolResult :=
  mkResult [mkBlock "text" (JSON_stringify formatted)] None.

Definition error_result (message : string) : CallToolResult :=
  mkResult [mkBlock "text" ("Perplexity API error: " ++ message)] (Some true).

(** The tokens of the [enum] the tool descriptor advertises. *)
Definition recency_tokens : list string := ["month"; "week"; "day"; "hour"].

(** The body of the failed response, [undefined] if there was none. *)
Definition error_body (axiosError : AxiosError) : JsVal :=
  match ae_response_data axiosError with
  | Some data => data
  | None => JUndefined
  end.

(** The message as the specification words it: the first field that is
    present. *)
Definition spec_errorMessage (axiosError : AxiosError) : JsVal :=
  match field "error" (error_body axiosError),
        field "message" (error_body axiosError) with
  | Some e, _ => e
  | None, Some m => m
  | None, None => JStr (ae_message axiosError)
  end.

Definition is_array (v : JsVal) : bool :=
  match v with
  | JArr _ => true
  | _ => false
  end.



(** [n] list-tools requests, one after the other. *)
Fixpoint list_tools_repeatedly (n : nat) : M (list (list ToolDescriptor)) :=
  match n with
  | O => ret []
  | S k =>
      first <- list_tools_handler ;;
      others <- list_tools_repeatedly k ;;
      ret (first :: others)
  end.

(** A member of [properties] in the input schema of the search tool. *)
Definition schema_property (name key : string) : option JsVal :=
  match field "properties" (inputSchema search_tool) with
  | Some properties =>
      match field name properties with
      | Some property => field key property
      | None => None
      end
  | None => None
  end.

(** ** Worlds, bodies and requests of the examples *)

Definition world_answering (key : option string) (answer : AxiosOutcome)
  : World :=
  mkWorld ["node"; "index.js"] key (fun _ _ _ => answer).

Definition paris_data : JsVal :=
  JObj [("choices", JArr [JObj [("message", JObj [("content", JStr "Paris")])]]);
        ("citations", JArr [JStr "https://a"])].

Definition no_citations_data : JsVal :=
  JObj [("choices", JArr [JObj [("message", JObj [("content", JStr "Paris")])]])].

Definition bare_choice_data : JsVal := JObj [("choices", JArr [JObj []])].

Definition empty_choices_data : JsVal :=
  JObj [("choices", JArr []); ("citations", JArr [])].

Definition france : SearchArguments := mkArgs "capital of France" None.

Definition last_year : SearchArguments := mkArgs "news" (Some "year").

Definition unknown_request : CallToolRequest := mkRequest "lookup" france.

Definition keyed_world : World :=
  world_answering (Some "pplx-key") (Resolved paris_data).

Definition foo_world : World :=
  mkWorld ["node"; "index.js"; "--model"; "foo"] (Some "key")
          (fun _ _ _ => Resolved paris_data).

Definition listen_after (model : string) : M unit :=
  emit (NewServer "perplexity-search-server" "0.1.0") ;;;
  emit (Connect StdioServerTransport).

Definition invalid_key_error : AxiosError :=
  mkAxiosError "Request failed with status code 401"
               (Some (JObj [("error", JStr "invalid_api_key")])).

Definition empty_error_field : AxiosError :=
  mkAxiosError "Request failed with status code 400"
               (Some (JObj [("error", JStr ""); ("message", JStr "bad request")])).

Definition nested_error : AxiosError :=
  mkAxiosError "Request failed with status code 401"
               (Some (JObj [("error",
                             JObj [("message", JStr "Invalid API key");
                                   ("type", JStr "invalid_api_key");
                                   ("code", JNum (num_of_Z 401))])])).

Definition shadowed_toString_error : AxiosError :=
  mkAxiosError "Request failed with status code 400"
               (Some (JObj [("error",
                             JObj [("toString", JNum (num_of_Z 1))])])).

Definition empty_array_error : AxiosError :=
  mkAxiosError "Request failed with status code 400"
               (Some (JObj [("error", JArr [])])).

Definition network_error : AxiosError :=
  mkAxiosError "connect ECONNREFUSED 127.0.0.1:443" None.

Definition programming_fault : Exn := PlainError "socket hang up in interceptor".

(** The keys of an object, in order. *)
Definition keys (v : JsVal) : list string :=
  match v with
  | JObj props => map fst props
  | _ => []
  end.

(** * Properties *)

(** ** The search case, run *)

Ltac run_search :=
  unfold search_case, try_catch, bind, console_error, emit, read_api_key,
    await_axios_post, lift, ret; simpl.

Lemma js_get_throws v key e :
  js_get v key = Throw e -> e = TypeError key.
Proof.
  destruct v; simpl; intros H; try discriminate H;
    try (injection H as <-; reflexivity).
  destruct (lookup key props); discriminate H.
Qed.

Lemma js_get_index_throws v i e :
  js_get_index v i = Throw e -> e = TypeError (string_of_nat i).
Proof.
  destruct v; simpl; intros H; try discriminate H;
    try (injection H as <-; reflexivity).
  - destruct (String.get i s); discriminate H.
  - destruct (lookup _ props); discriminate H.
Qed.

(** Formatting the response can only fail on a property read. *)
Lemma formattedResponse_throws data e :
  formattedResponse data = Throw e -> exists key, e = TypeError key.
Proof.
  unfold formattedResponse; intros H.
  destruct (js_get data "choices") as [choices | e1] eqn:E1.
  2: { injection H as <-. eexists. eapply js_get_throws, E1. }
  destruct (js_get_index choices 0) as [first | e2] eqn:E2.
  2: { injection H as <-. eexists. eapply js_get_index_throws, E2. }
  destruct (js_get first "message") as [message | e3] eqn:E3.
  2: { injection H as <-. eexists. eapply js_get_throws, E3. }
  destruct (js_get message "content") as [mc | e4] eqn:E4.
  2: { injection H as <-. eexists. eapply js_get_throws, E4. }
  destruct (js_get data "citations") as [cit | e5] eqn:E5.
  2: { injection H as <-. eexists. eapply js_get_throws, E5. }
  discriminate H.
Qed.

Section SearchCase.

Variables (model : string) (args : SearchArguments) (w : World).

(** Whatever the Gateway answers, the effects are the log line and the one
    outbound call. *)
Lemma search_case_trace :
  fst (search_case model args w) = search_trace model args w.
Proof.
  run_search; unfold search_trace.
  destruct (axios_post w _ _ _) as [data | e]; simpl.
  - destruct (formattedResponse data) as [f | e]; simpl; [reflexivity |].
    destruct e as [ | | | a | | | ]; try reflexivity.
    unfold template; destruct (js_to_string (errorMessage a)); reflexivity.
  - destruct e as [ | | | a | | | ]; try reflexivity.
    unfold template; destruct (js_to_string (errorMessage a)); reflexivity.
Qed.

Lemma search_case_rejected e :
  gateway_answer model args w = Rejected e ->
  snd (search_case model args w) =
  match e with
  | AxiosErr axiosError =>
      match js_to_string (errorMessage axiosError) with
      | Some reason => Return (error_result reason)
      | None => Throw CannotConvert
      end
  | _ => Throw e
  end.
Proof.
  unfold gateway_answer; intros Hpost.
  run_search; rewrite Hpost; simpl.
  destruct e as [ | | | a | | | ]; try reflexivity.
  unfold template; destruct (js_to_string (errorMessage a)); reflexivity.
Qed.

Lemma search_case_resolved data :
  gateway_answer model args w = Resolved data ->
  snd (search_case model args w) =
  match formattedResponse data with
  | Return formatted => Return (success_result formatted)
  | Throw e => Throw e
  end.
Proof.
  unfold gateway_answer; intros Hpost.
  run_search; rewrite Hpost; simpl.
  destruct (formattedResponse data) as [f | e] eqn:Hf; simpl; [reflexivity |].
  destruct (formattedResponse_throws _ _ Hf) as [key ->]; reflexivity.
Qed.

Lemma call_search :
  call_tool_handler model (mkRequest "search" args) w
  = search_case model args w.
Proof. reflexivity. Qed.

Lemma handler_outbound_calls :
  outbound_calls (fst (call_tool_handler model (mkRequest "search" args) w))
  = [HttpPost endpoint (payload model args)
       (request_headers (PERPLEXITY_API_KEY w))].
Proof. rewrite call_search, search_case_trace; reflexivity. Qed.

End SearchCase.

(** ** Success mapping *)

Example paris_response :
  snd (call_tool_handler "sonar-pro" (mkRequest "search" france)
         (world_answering (Some "key") (Resolved paris_data)))
  = Return (mkResult
              [mkBlock "text"
                 (JSON_stringify
                    (JObj [("content", JStr "Paris");
                           ("citations", JArr [JStr "https://a"])]))]
              None).
Proof. reflexivity. Qed.

Example omitted_citations_response :
  snd (call_tool_handler "sonar-pro" (mkRequest "search" france)
         (world_answering (Some "key") (Resolved no_citations_data)))
  = Return (mkResult
              [mkBlock "text"
                 (JSON_stringify
                    (JObj [("content", JStr "Paris"); ("citations", JArr [])]))]
              None).
Proof. reflexivity. Qed.

(** C1, as stated, fails: the Gateway resolves with a body whose [choices]
    list is not empty, but whose first choice carries no [message]; reading
    [content] of the missing message throws, and the handler returns no
    response. *)
Lemma success_mapping_counterexample :
  let w := world_answering (Some "key") (Resolved bare_choice_data) in
  gateway_answer "sonar-pro" france w = Resolved bare_choice_data
  /\ js_get bare_choice_data "choices" = Return (JArr [JObj []])
  /\ snd (call_tool_handler "sonar-pro" (mkRequest "search" france) w)
     = Throw (TypeError "content").
Proof. repeat split. Qed.

(** C1, amended: when the Gateway resolves (a 2xx response) with a body whose
    [choices] list is not empty and whose first choice has a [message] that is
    neither [undefined] nor [null], the handler returns a response with
    [isError] unset whose single text block is the JSON serialization of
    [{content, citations}]: [content] is the content of the first choice's
    message, and [citations] is the top-level citations list, or the empty
    sequence when the [citations] field is absent. *)
Theorem search_success_mapping
    (model : string) (args : SearchArguments) (w : World)
    (data first message message_content : JsVal) (others : list JsVal) :
  gateway_answer model args w = Resolved data ->
  js_get data "choices" = Return (JArr (first :: others)) ->
  js_get first "message" = Return message ->
  js_get message "content" = Return message_content ->
  exists citations,
    snd (call_tool_handler model (mkRequest "search" args) w)
    = Return (mkResult
                [mkBlock "text"
                   (JSON_stringify (JObj [("content", message_content);
                                          ("citations", citations)]))]
                None)
    /\ (field "citations" data = None -> citations = JArr [])
    /\ (forall l, field "citations" data = Some (JArr l) -> citations = JArr l).
Proof.
  intros Hpost Hchoices Hmessage Hcontent.
  destruct data as [ | | | | | | props]; try discriminate Hchoices.
  exists (js_or (match lookup "citations" props with
                 | Some x => x
                 | None => JUndefined
                 end) (JArr [])).
  split; [| split].
  - rewrite call_search, (search_case_resolved _ _ _ _ Hpost).
    unfold formattedResponse.
    rewrite Hchoices; cbv beta iota.
    change (js_get_index (JArr (first :: others)) 0) with (Return first).
    cbv beta iota; rewrite Hmessage; cbv beta iota.
    rewrite Hcontent; simpl.
    destruct (lookup "citations" props); reflexivity.
  - simpl; intros ->; reflexivity.
  - simpl; intros l ->; reflexivity.
Qed.

Lemma search_success_mapping_witness :
  exists citations,
    snd (call_tool_handler "sonar-pro" (mkRequest "search" france)
           (world_answering (Some "key") (Resolved paris_data)))
    = Return (mkResult
                [mkBlock "text"
                   (JSON_stringify (JObj [("content", JStr "Paris");
                                          ("citations", citations)]))]
                None)
    /\ (field "citations" paris_data = None -> citations = JArr [])
    /\ (forall l, field "citations" paris_data = Some (JArr l)
                  -> citations = JArr l).
Proof.
  apply (search_success_mapping "sonar-pro" france
           (world_answering (Some "key") (Resolved paris_data))
           paris_data
           (JObj [("message", JObj [("content", JStr "Paris")])])
           (JObj [("content", JStr "Paris")])
           (JStr "Paris") []); reflexivity.
Defined.

(** ** Failure mapping *)

Example invalid_api_key_response :
  snd (call_tool_handler "sonar-pro" (mkRequest "search" france)
         (world_answering (Some "key") (Rejected (AxiosErr invalid_key_error))))
  = Return (mkResult [mkBlock "text" "Perplexity API error: invalid_api_key"]
                     (Some true)).
Proof. reflexivity. Qed.

Example nested_error_response :
  snd (call_tool_handler "sonar-pro" (mkRequest "search" france)
         (world_answering (Some "key") (Rejected (AxiosErr nested_error))))
  = Return (mkResult [mkBlock "text" "Perplexity API error: [object Object]"]
                     (Some true)).
Proof. reflexivity. Qed.

Example network_error_response :
  snd (call_tool_handler "sonar-pro" (mkRequest "search" france)
         (world_answering (Some "key") (Rejected (AxiosErr network_error))))
  = Return (mkResult
              [mkBlock "text"
                 "Perplexity API error: connect ECONNREFUSED 127.0.0.1:443"]
              (Some true)).
Proof. reflexivity. Qed.

(** C2, as stated, fails twice.  The body of the failed response has an
    [error] field that is the empty string and a [message] field: the claim
    picks the [error] field (it is present), the handler picks the [message]
    field.  And the handler does throw when the chosen value cannot be
    converted to a string: an [error] field that is an object with a
    [toString] key of its own makes the template literal in the catch block
    throw. *)
Lemma error_priority_counterexample :
  let w := world_answering (Some "key") (Rejected (AxiosErr empty_error_field)) in
  let w' := world_answering (Some "key")
              (Rejected (AxiosErr shadowed_toString_error)) in
  snd (call_tool_handler "sonar-pro" (mkRequest "search" france) w)
  = Return (mkResult [mkBlock "text" "Perplexity API error: bad request"]
                     (Some true))
  /\ spec_errorMessage empty_error_field = JStr ""
  /\ String.eqb "Perplexity API error: bad request"
       ("Perplexity API error: " ++ "")
     = false
  /\ snd (call_tool_handler "sonar-pro" (mkRequest "search" france) w')
     = Throw CannotConvert.
Proof. repeat split. Qed.

Lemma js_or_truthy a b : truthy a = true -> js_or a b = a.
Proof. unfold js_or; intros ->; reflexivity. Qed.

Lemma js_or_falsy a b : truthy a = false -> js_or a b = b.
Proof. unfold js_or; intros ->; reflexivity. Qed.

(** C2, amended: when the outbound call fails with an HTTP-layer error, the
    message is chosen by priority: the [error] field of the response body if
    it is truthy (present and not empty), else its [message] field if it is
    truthy, else the message of the transport error.  When the chosen message
    is a string, and more generally whenever its conversion to a string does
    not throw, the handler returns (does not throw) a response with [isError]
    true whose single text block is the prefix followed by that message. *)
Theorem axios_error_mapping
    (model : string) (args : SearchArguments) (w : World) (e : AxiosError) :
  gateway_answer model args w = Rejected (AxiosErr e) ->
  (forall reason,
      js_to_string (errorMessage e) = Some reason ->
      snd (call_tool_handler model (mkRequest "search" args) w)
      = Return (mkResult
                  [mkBlock "text" ("Perplexity API error: " ++ reason)]
                  (Some true)))
  /\ (forall s,
        errorMessage e = JStr s ->
        snd (call_tool_handler model (mkRequest "search" args) w)
        = Return (mkResult
                    [mkBlock "text" ("Perplexity API error: " ++ s)]
                    (Some true)))
  /\ (truthy (optional_get (error_body e) "error") = true ->
      errorMessage e = optional_get (error_body e) "error")
  /\ (truthy (optional_get (error_body e) "error") = false ->
      truthy (optional_get (error_body e) "message") = true ->
      errorMessage e = optional_get (error_body e) "message")
  /\ (truthy (optional_get (error_body e) "error") = false ->
      truthy (optional_get (error_body e) "message") = false ->
      errorMessage e = JStr (ae_message e)).
Proof.
  intros Hpost.
  assert (Hret : forall reason,
             js_to_string (errorMessage e) = Some reason ->
             snd (call_tool_handler model (mkRequest "search" args) w)
             = Return (mkResult
                         [mkBlock "text" ("Perplexity API error: " ++ reason)]
                         (Some true))).
  { intros reason Hreason.
    rewrite call_search, (search_case_rejected _ _ _ _ Hpost), Hreason.
    reflexivity. }
  split; [exact Hret |].
  split; [intros s Hs; apply Hret; rewrite Hs; reflexivity |].
  unfold errorMessage; fold (error_body e).
  split; [| split].
  - intros He; rewrite (js_or_truthy _ _ He); apply js_or_truthy, He.
  - intros He Hm; rewrite (js_or_falsy _ _ He); apply js_or_truthy, Hm.
  - intros He Hm; rewrite (js_or_falsy _ _ He); apply js_or_falsy, Hm.
Qed.

Lemma axios_error_mapping_witness :
  gateway_answer "sonar-pro" france
    (world_answering (Some "key") (Rejected (AxiosErr invalid_key_error)))
  = Rejected (AxiosErr invalid_key_error)
  /\ errorMessage invalid_key_error = JStr "invalid_api_key"
  /\ snd (call_tool_handler "sonar-pro" (mkRequest "search" france)
            (world_answering (Some "key")
               (Rejected (AxiosErr invalid_key_error))))
     = Return (mkResult
                 [mkBlock "text" ("Perplexity API error: " ++ "invalid_api_key")]
                 (Some true)).
Proof.
  split; [reflexivity |]. split; [reflexivity |].
  destruct (axios_error_mapping "sonar-pro" france
              (world_answering (Some "key")
                 (Rejected (AxiosErr invalid_key_error)))
              invalid_key_error eq_refl) as [_ [Hstring _]].
  apply Hstring; reflexivity.
Defined.

(** ** The recency filter and the outbound call *)

Lemma payload_with_filter model q filter :
  filter <> "" ->
  payload model (mkArgs q (Some filter))
  = JObj (initial_payload model q ++ [("search_recency_filter", JStr filter)]).
Proof.
  intros Hf; unfold payload; simpl.
  destruct (String.eqb_spec filter ""); [contradiction | reflexivity].
Qed.

Lemma payload_without_filter model q :
  payload model (mkArgs q None) = JObj (initial_payload model q).
Proof. reflexivity. Qed.

Lemma payload_with_empty_filter model q :
  payload model (mkArgs q (Some "")) = JObj (initial_payload model q).
Proof. reflexivity. Qed.

Lemma token_not_empty filter : In filter recency_tokens -> filter <> "".
Proof.
  unfold recency_tokens; simpl.
  intros [<- | [<- | [<- | [<- | []]]]]; discriminate.
Qed.

(** C3, as stated, fails: [year] is none of the four tokens, and the request
    is not rejected: the one outbound call is made, its payload carries
    [year], and the handler returns the Gateway's answer. *)
Lemma recency_validation_counterexample :
  let w := world_answering (Some "key") (Resolved paris_data) in
  existsb (String.eqb "year") recency_tokens = false
  /\ outbound_calls
       (fst (call_tool_handler "sonar-pro" (mkRequest "search" last_year) w))
     = [HttpPost endpoint (payload "sonar-pro" last_year)
          (request_headers (Some "key"))]
  /\ field "search_recency_filter" (payload "sonar-pro" last_year)
     = Some (JStr "year")
  /\ snd (call_tool_handler "sonar-pro" (mkRequest "search" last_year) w)
     = Return (mkResult
                 [mkBlock "text"
                    (JSON_stringify
                       (JObj [("content", JStr "Paris");
                              ("citations", JArr [JStr "https://a"])]))]
                 None).
Proof. repeat split. Qed.

(** C3, amended: for every invocation of the search tool with the recency
    filter present, the one outbound call is made whatever the value is (no
    value is rejected); if the value is one of month, week, day or hour, and
    more generally if it is not the empty string, the payload carries that
    exact value in its [search_recency_filter] field; if it is the empty
    string the payload has no such field. *)
Theorem recency_filter_forwarded
    (model q filter : string) (w : World) :
  let args := mkArgs q (Some filter) in
  outbound_calls (fst (call_tool_handler model (mkRequest "search" args) w))
  = [HttpPost endpoint (payload model args)
       (request_headers (PERPLEXITY_API_KEY w))]
  /\ (In filter recency_tokens ->
      field "search_recency_filter" (payload model args) = Some (JStr filter))
  /\ (filter <> "" ->
      field "search_recency_filter" (payload model args) = Some (JStr filter))
  /\ (filter = "" ->
      field "search_recency_filter" (payload model args) = None).
Proof.
  intros args; subst args.
  assert (Hcarry : filter <> "" ->
            field "search_recency_filter" (payload model (mkArgs q (Some filter)))
            = Some (JStr filter)).
  { intros Hf; rewrite (payload_with_filter _ _ _ Hf); reflexivity. }
  split; [apply handler_outbound_calls |].
  split; [intros Hin; apply Hcarry, token_not_empty, Hin |].
  split; [exact Hcarry |].
  intros ->; reflexivity.
Qed.

(** C4: when the recency filter is absent from the arguments, the payload of
    the outbound call is the four initial fields and has no
    [search_recency_filter] field at all. *)
Theorem absent_filter_omitted (model q : string) (w : World) :
  let args := mkArgs q None in
  outbound_calls (fst (call_tool_handler model (mkRequest "search" args) w))
  = [HttpPost endpoint (payload model args)
       (request_headers (PERPLEXITY_API_KEY w))]
  /\ payload model args = JObj (initial_payload model q)
  /\ field "search_recency_filter" (payload model args) = None
  /\ has_property "search_recency_filter" (payload model args) = false.
Proof.
  intros args; subst args.
  split; [apply handler_outbound_calls |].
  repeat split.
Qed.

(** C6: an invocation of the search tool with query [q] issues exactly one
    outbound POST, to the fixed endpoint, with the bearer token of the
    environment in the Authorization header; its body is the model, the single
    user message holding [q], [max_tokens] 8192, [temperature] 0.2, and a
    [search_recency_filter] field only if a filter was provided. *)
Theorem one_outbound_post
    (model q : string) (filter : option string) (w : World) (apiKey : string) :
  PERPLEXITY_API_KEY w = Some apiKey ->
  exists optional,
    outbound_calls
      (fst (call_tool_handler model (mkRequest "search" (mkArgs q filter)) w))
    = [HttpPost "https://api.perplexity.ai/chat/completions"
         (JObj ([("model", JStr model);
                 ("messages",
                  JArr [JObj [("role", JStr "user"); ("content", JStr q)]]);
                 ("max_tokens", JNum (num_of_Z 8192));
                 ("temperature", JNum (mkNum 2 1))] ++ optional))
         [("Authorization", "Bearer " ++ apiKey);
          ("Content-Type", "application/json")]]
    /\ (optional = []
        \/ exists f, filter = Some f
                     /\ optional = [("search_recency_filter", JStr f)])
    /\ (filter = None -> optional = [])
    /\ (forall f, filter = Some f -> f <> "" ->
                  optional = [("search_recency_filter", JStr f)]).
Proof.
  intros Hkey.
  rewrite handler_outbound_calls, Hkey.
  destruct filter as [f |].
  - destruct (String.eqb_spec f "") as [-> | Hf].
    + exists []; split; [reflexivity | split; [| split]].
      * left; reflexivity.
      * discriminate.
      * intros f [= <-] Hf; contradiction.
    + exists [("search_recency_filter", JStr f)].
      rewrite (payload_with_filter _ _ _ Hf).
      split; [reflexivity | split; [| split]].
      * right; exists f; split; reflexivity.
      * discriminate.
      * intros f' [= <-] _; reflexivity.
  - exists []; split; [reflexivity | split; [| split]].
    + left; reflexivity.
    + reflexivity.
    + discriminate.
Qed.

Lemma one_outbound_post_witness :
  exists optional,
    outbound_calls
      (fst (call_tool_handler "sonar"
              (mkRequest "search" (mkArgs "capital of France" (Some "week")))
              keyed_world))
    = [HttpPost "https://api.perplexity.ai/chat/completions"
         (JObj ([("model", JStr "sonar");
                 ("messages",
                  JArr [JObj [("role", JStr "user");
                              ("content", JStr "capital of France")]]);
                 ("max_tokens", JNum (num_of_Z 8192));
                 ("temperature", JNum (mkNum 2 1))] ++ optional))
         [("Authorization", "Bearer " ++ "pplx-key");
          ("Content-Type", "application/json")]]
    /\ (optional = []
        \/ exists f, Some "week" = Some f
                     /\ optional = [("search_recency_filter", JStr f)])
    /\ (Some "week" = None -> optional = [])
    /\ (forall f, Some "week" = Some f -> f <> "" ->
                  optional = [("search_recency_filter", JStr f)]).
Proof.
  apply (one_outbound_post "sonar" "capital of France" (Some "week")
           keyed_world "pplx-key").
  reflexivity.
Defined.

(** ** Unknown tools *)

Lemma name_is_not_search name : name <> "search" -> String.eqb name "search" = false.
Proof. intros H; destruct (String.eqb_spec name "search"); [contradiction | reflexivity]. Qed.

(** C5: a request whose tool name is not [search] fails with a
    MethodNotFound protocol error and performs no effect, so no outbound call;
    in a session the failure is the reply to that request alone, and the
    requests after it are answered as they would be without it. *)
Theorem unknown_tool_rejected
    (model : string) (request : CallToolRequest) (w : World) :
  params_name request <> "search" ->
  call_tool_handler model request w
  = ([], Throw (McpError MethodNotFound
                  ("Unknown tool: " ++ params_name request)))
  /\ outbound_calls (fst (call_tool_handler model request w)) = []
  /\ forall later,
       serve model (request :: later) w
       = (fst (serve model later w),
          ErrorReply (McpError MethodNotFound
                        ("Unknown tool: " ++ params_name request))
            :: snd (serve model later w)).
Proof.
  intros Hname.
  assert (Hrun : call_tool_handler model request w
                 = ([], Throw (McpError MethodNotFound
                                 ("Unknown tool: " ++ params_name request)))).
  { unfold call_tool_handler; rewrite (name_is_not_search _ Hname); reflexivity. }
  split; [exact Hrun |].
  split; [rewrite Hrun; reflexivity |].
  intros later; simpl serve; rewrite Hrun.
  destruct (serve model later w) as [t replies]; reflexivity.
Qed.

Lemma unknown_tool_rejected_witness :
  call_tool_handler "sonar-pro" unknown_request keyed_world
  = ([], Throw (McpError MethodNotFound "Unknown tool: lookup"))
  /\ outbound_calls (fst (call_tool_handler "sonar-pro" unknown_request keyed_world))
     = []
  /\ forall later,
       serve "sonar-pro" (unknown_request :: later) keyed_world
       = (fst (serve "sonar-pro" later keyed_world),
          ErrorReply (McpError MethodNotFound "Unknown tool: lookup")
            :: snd (serve "sonar-pro" later keyed_world)).
Proof.
  apply (unknown_tool_rejected "sonar-pro" unknown_request keyed_world).
  discriminate.
Defined.

Example session_survives_unknown_tool :
  snd (serve "sonar-pro" [unknown_request; mkRequest "search" france] keyed_world)
  = [ErrorReply (McpError MethodNotFound "Unknown tool: lookup");
     ResultReply (success_result
                    (JObj [("content", JStr "Paris");
                           ("citations", JArr [JStr "https://a"])]))].
Proof. reflexivity. Qed.

(** ** Start-up *)

Lemma select_model_default args :
  indexOf "--model" args = None -> select_model args = Some "sonar-pro".
Proof. unfold select_model; intros ->; reflexivity. Qed.

Lemma indexOf_app_first x before after :
  ~ In x before ->
  indexOf x (before ++ x :: after) = Some (List.length before).
Proof.
  induction before as [| y before IH]; intros Hnot; simpl.
  - rewrite String.eqb_refl; reflexivity.
  - destruct (String.eqb_spec y x) as [-> | _].
    + exfalso; apply Hnot; left; reflexivity.
    + rewrite IH; [reflexivity |].
      intros Hin; apply Hnot; right; exact Hin.
Qed.

(** The value that follows the first [--model] is the model. *)
Lemma select_model_flag before value after :
  ~ In "--model" before ->
  select_model (before ++ "--model" :: value :: after) = Some value.
Proof.
  intros Hnot; unfold select_model.
  rewrite (indexOf_app_first _ _ _ Hnot).
  replace (List.length before + 1)%nat with (List.length before + 1 + 0)%nat by lia.
  rewrite <- Nat.add_assoc.
  rewrite nth_error_app2 by lia.
  replace (List.length before + (1 + 0) - List.length before)%nat with 1%nat by lia.
  reflexivity.
Qed.

Lemma includes_rejects model :
  model <> Some "sonar" -> model <> Some "sonar-pro" ->
  includes recognized_models model = false.
Proof.
  intros H1 H2; destruct model as [m |]; [| reflexivity]; simpl.
  destruct (String.eqb_spec m "sonar") as [-> | _]; [contradiction |].
  destruct (String.eqb_spec m "sonar-pro") as [-> | _]; [contradiction |].
  reflexivity.
Qed.

(** C7: if the model value (what follows [--model], or [sonar-pro] when the
    flag is absent) is neither [sonar] nor [sonar-pro], start-up throws right
    after the environment file was loaded: in the class variant the
    constructor fails before the server object exists, before a handler is
    registered and before [run] connects the transport; in the script variant
    none of the statements after the check runs. *)
Theorem startup_rejects_unknown_model (w : World) (rest : string -> M unit) :
  select_model (argv w) <> Some "sonar" ->
  select_model (argv w) <> Some "sonar-pro" ->
  main_class w = ([LoadDotenv], Throw (PlainError invalid_model_message))
  /\ main_script rest w = ([LoadDotenv], Throw (PlainError invalid_model_message))
  /\ existsb binds_or_serves (fst (main_class w)) = false
  /\ existsb binds_or_serves (fst (main_script rest w)) = false.
Proof.
  intros H1 H2.
  pose proof (includes_rejects _ H1 H2) as Hinc.
  assert (Hclass : main_class w
                   = ([LoadDotenv], Throw (PlainError invalid_model_message))).
  { unfold main_class, PerplexityServer_constructor, check_model, bind,
      read_argv, emit; simpl.
    rewrite Hinc; reflexivity. }
  assert (Hscript : main_script rest w
                    = ([LoadDotenv], Throw (PlainError invalid_model_message))).
  { unfold main_script, check_model, bind, read_argv, emit; simpl.
    rewrite Hinc; reflexivity. }
  rewrite Hclass, Hscript; repeat split.
Qed.

Lemma startup_rejects_unknown_model_witness :
  select_model (argv foo_world) = Some "foo"
  /\ main_class foo_world
     = ([LoadDotenv], Throw (PlainError invalid_model_message))
  /\ main_script listen_after foo_world
     = ([LoadDotenv], Throw (PlainError invalid_model_message))
  /\ existsb binds_or_serves (fst (main_class foo_world)) = false
  /\ existsb binds_or_serves (fst (main_script listen_after foo_world)) = false.
Proof.
  split; [reflexivity |].
  apply (startup_rejects_unknown_model foo_world listen_after); discriminate.
Defined.

(** With a recognized model the class variant does reach the transport. *)
Lemma startup_accepts_recognized_model w m :
  select_model (argv w) = Some m -> In m recognized_models ->
  main_class w
  = ([LoadDotenv; ConsoleError ("Using Perplexity model: " ++ m);
      NewServer "perplexity-search-server" "0.1.0";
      SetRequestHandler ListToolsRequestSchema;
      SetRequestHandler CallToolRequestSchema;
      SetOnError; OnSignal "SIGINT"; Connect StdioServerTransport;
      ConsoleError "Perplexity Search MCP server running on stdio"],
     Return tt).
Proof.
  intros Hsel Hin.
  unfold main_class, PerplexityServer_constructor, check_model, bind,
    read_argv, emit; simpl.
  rewrite Hsel.
  destruct Hin as [<- | [<- | []]]; reflexivity.
Qed.

(** ** Discovery *)

(** C8: the list-tools handler has no effect and does not depend on the
    world; called any number of times it answers each time with the same
    one-element list, whose element is named [search], requires the string
    field [query] and nothing else, and constrains the field
    [search_recency_filter] to month, week, day and hour. *)
Theorem list_tools_idempotent (n : nat) (w : World) :
  list_tools_handler w = ([], Return [search_tool])
  /\ list_tools_repeatedly n w = ([], Return (repeat [search_tool] n))
  /\ tool_name search_tool = "search"
  /\ field "required" (inputSchema search_tool) = Some (JArr [JStr "query"])
  /\ schema_property "query" "type" = Some (JStr "string")
  /\ schema_property "search_recency_filter" "type" = Some (JStr "string")
  /\ schema_property "search_recency_filter" "enum"
     = Some (JArr (map JStr recency_tokens)).
Proof.
  split; [reflexivity |].
  split; [| repeat split].
  induction n as [| k IH]; [reflexivity |].
  simpl list_tools_repeatedly; unfold bind at 1.
  change (list_tools_handler w) with (@nil Event, Return [search_tool]).
  cbv beta iota; unfold bind at 1; rewrite IH; reflexivity.
Qed.

(** ** Exceptions that are not HTTP-layer errors *)

(** C9: when the outbound call is rejected with an exception that is not an
    HTTP-layer error, or formatting the resolved response raises one, the
    handler returns no response: it throws that same exception. *)
Theorem other_exception_propagates
    (model : string) (args : SearchArguments) (w : World) (e : Exn) :
  isAxiosError e = false ->
  gateway_answer model args w = Rejected e
  \/ (exists data, gateway_answer model args w = Resolved data
                   /\ formattedResponse data = Throw e) ->
  snd (call_tool_handler model (mkRequest "search" args) w) = Throw e.
Proof.
  intros Hnot [Hrej | [data [Hres Hfmt]]]; rewrite call_search.
  - rewrite (search_case_rejected _ _ _ _ Hrej).
    destruct e; try reflexivity; discriminate Hnot.
  - rewrite (search_case_resolved _ _ _ _ Hres), Hfmt; reflexivity.
Qed.

Lemma other_exception_propagates_witness :
  snd (call_tool_handler "sonar-pro" (mkRequest "search" france)
         (world_answering (Some "key") (Rejected programming_fault)))
  = Throw programming_fault.
Proof.
  apply (other_exception_propagates "sonar-pro" france
           (world_answering (Some "key") (Rejected programming_fault))
           programming_fault).
  - reflexivity.
  - left; reflexivity.
Defined.

(** ** A resolved response without choices *)

(** C10: when the Gateway resolves with a body whose [choices] list is empty
    or absent, the handler returns no response: reading the first choice's
    message is a TypeError, which is not an HTTP-layer error and leaves the
    handler as thrown. *)
Theorem empty_choices_fault
    (model : string) (args : SearchArguments) (w : World) (data : JsVal) :
  gateway_answer model args w = Resolved data ->
  field "choices" data = Some (JArr []) \/ field "choices" data = None ->
  exists reading,
    snd (call_tool_handler model (mkRequest "search" args) w)
    = Throw (TypeError reading)
    /\ isAxiosError (TypeError reading) = false.
Proof.
  intros Hres Hchoices; rewrite call_search, (search_case_resolved _ _ _ _ Hres).
  unfold formattedResponse.
  destruct data as [ | | b | n | s | elems | props]; simpl in *;
    try (eexists; split; reflexivity).
  destruct Hchoices as [-> | ->]; simpl; eexists; split; reflexivity.
Qed.

Lemma empty_choices_fault_witness :
  exists reading,
    snd (call_tool_handler "sonar-pro" (mkRequest "search" france)
           (world_answering (Some "key") (Resolved empty_choices_data)))
    = Throw (TypeError reading)
    /\ isAxiosError (TypeError reading) = false.
Proof.
  apply (empty_choices_fault "sonar-pro" france
           (world_answering (Some "key") (Resolved empty_choices_data))
           empty_choices_data).
  - reflexivity.
  - left; reflexivity.
Defined.

Example empty_choices_reads_message :
  call_tool_handler "sonar-pro" (mkRequest "search" france)
    (world_answering (Some "key") (Resolved empty_choices_data))
  = (search_trace "sonar-pro" france
       (world_answering (Some "key") (Resolved empty_choices_data)),
     Throw (TypeError "message")).
Proof. reflexivity. Qed.

(** * Further properties of the handlers *)

(** ** Every way a search can end *)

Lemma search_outcome_cases model args w :
  (exists data formatted,
      gateway_answer model args w = Resolved data
      /\ formattedResponse data = Return formatted
      /\ snd (call_tool_handler model (mkRequest "search" args) w)
         = Return (success_result formatted))
  \/ (exists axiosError reason,
         gateway_answer model args w = Rejected (AxiosErr axiosError)
         /\ js_to_string (errorMessage axiosError) = Some reason
         /\ snd (call_tool_handler model (mkRequest "search" args) w)
            = Return (error_result reason))
  \/ (exists e,
         isAxiosError e = false
         /\ snd (call_tool_handler model (mkRequest "search" args) w) = Throw e).
Proof.
  rewrite call_search.
  destruct (gateway_answer model args w) as [data | e] eqn:Hanswer.
  - rewrite (search_case_resolved _ _ _ _ Hanswer).
    destruct (formattedResponse data) as [formatted | e] eqn:Hformat.
    + left; exists data, formatted; repeat split; assumption.
    + right; right; exists e; split; [| reflexivity].
      destruct (formattedResponse_throws _ _ Hformat) as [key ->]; reflexivity.
  - rewrite (search_case_rejected _ _ _ _ Hanswer).
    destruct e as [key | msg | code msg | axiosError | v | | name].
    4: { destruct (js_to_string (errorMessage axiosError))
           as [reason |] eqn:Hreason.
         - right; left; exists axiosError, reason.
           split; [reflexivity |]. split; [exact Hreason | reflexivity].
         - right; right; exists CannotConvert; split; reflexivity. }
    all: right; right; eexists; split; [| reflexivity]; reflexivity.
Qed.

(** X1: a search ends in exactly one of three ways: the Gateway resolved and
    the formatted body is returned as the success result; the call was
    rejected with an HTTP-layer error and the error result, carrying the
    chosen message as a string, is returned; or an exception that is not an
    HTTP-layer error is thrown. *)
Theorem search_outcome_classification
    (model : string) (args : SearchArguments) (w : World) :
  (exists data formatted,
      gateway_answer model args w = Resolved data
      /\ formattedResponse data = Return formatted
      /\ snd (call_tool_handler model (mkRequest "search" args) w)
         = Return (mkResult [mkBlock "text" (JSON_stringify formatted)] None))
  \/ (exists axiosError reason,
         gateway_answer model args w = Rejected (AxiosErr axiosError)
         /\ js_to_string (errorMessage axiosError) = Some reason
         /\ snd (call_tool_handler model (mkRequest "search" args) w)
            = Return (mkResult
                        [mkBlock "text" ("Perplexity API error: " ++ reason)]
                        (Some true)))
  \/ (exists e,
         isAxiosError e = false
         /\ snd (call_tool_handler model (mkRequest "search" args) w) = Throw e).
Proof. exact (search_outcome_cases model args w). Qed.

(** X2: no HTTP-layer error ever leaves the handler: whatever it throws is
    not an axios error. *)
Theorem thrown_is_never_http_error
    (model : string) (request : CallToolRequest) (w : World) (e : Exn) :
  snd (call_tool_handler model request w) = Throw e ->
  isAxiosError e = false.
Proof.
  destruct request as [name args]; unfold call_tool_handler;
    cbn [params_name params_arguments].
  destruct (String.eqb_spec name "search") as [-> | Hname].
  - rewrite <- (call_search model args w).
    destruct (search_outcome_cases model args w)
      as [[data [f [_ [_ Hrun]]]]
         | [[a [reason [_ [_ Hrun]]]] | [e' [Hnot Hrun]]]];
      rewrite Hrun; intros H; try discriminate H.
    injection H as <-; exact Hnot.
  - simpl; intros [= <-]; reflexivity.
Qed.

Lemma thrown_is_never_http_error_witness :
  snd (call_tool_handler "sonar-pro" (mkRequest "search" france)
         (world_answering (Some "key") (Resolved bare_choice_data)))
  = Throw (TypeError "content")
  /\ isAxiosError (TypeError "content") = false.
Proof.
  split; [reflexivity |].
  apply (thrown_is_never_http_error "sonar-pro" (mkRequest "search" france)
           (world_answering (Some "key") (Resolved bare_choice_data))).
  reflexivity.
Defined.

(** X3: a result with the error flag set is returned exactly when the
    outbound call was rejected with an HTTP-layer error whose chosen message
    converts to a string; when that conversion throws, the conversion's
    TypeError leaves the handler and no result is returned. *)
Theorem error_flag_iff_http_error
    (model : string) (args : SearchArguments) (w : World) :
  ((exists r, snd (call_tool_handler model (mkRequest "search" args) w) = Return r
              /\ isError r = Some true)
   <-> (exists axiosError reason,
           gateway_answer model args w = Rejected (AxiosErr axiosError)
           /\ js_to_string (errorMessage axiosError) = Some reason))
  /\ (forall axiosError,
        gateway_answer model args w = Rejected (AxiosErr axiosError) ->
        js_to_string (errorMessage axiosError) = None ->
        snd (call_tool_handler model (mkRequest "search" args) w)
        = Throw CannotConvert).
Proof.
  split; [split |].
  - intros [r [Hret Hflag]].
    destruct (search_outcome_cases model args w)
      as [[data [f [_ [_ Hrun]]]]
         | [[a [reason [Hanswer [Hreason _]]]] | [e [_ Hrun]]]].
    + rewrite Hrun in Hret; injection Hret as <-; discriminate Hflag.
    + exists a, reason; split; assumption.
    + rewrite Hrun in Hret; discriminate Hret.
  - intros [a [reason [Hanswer Hreason]]].
    exists (error_result reason); split; [| reflexivity].
    rewrite call_search, (search_case_rejected _ _ _ _ Hanswer), Hreason.
    reflexivity.
  - intros a Hanswer Hnone.
    rewrite call_search, (search_case_rejected _ _ _ _ Hanswer), Hnone.
    reflexivity.
Qed.

(** X4: a result the handler returns always holds exactly one content block,
    of type [text]. *)
Theorem result_has_one_text_block
    (model : string) (request : CallToolRequest) (w : World)
    (r : CallToolResult) :
  snd (call_tool_handler model request w) = Return r ->
  exists body, content r = [mkBlock "text" body].
Proof.
  destruct request as [name args]; unfold call_tool_handler;
    cbn [params_name params_arguments].
  destruct (String.eqb_spec name "search") as [-> | Hname].
  - rewrite <- (call_search model args w).
    destruct (search_outcome_cases model args w)
      as [[data [f [_ [_ Hrun]]]]
         | [[a [reason [_ [_ Hrun]]]] | [e' [_ Hrun]]]];
      rewrite Hrun; intros H; try discriminate H;
      injection H as <-; eexists; reflexivity.
  - simpl; discriminate.
Qed.

Lemma result_has_one_text_block_witness :
  snd (call_tool_handler "sonar-pro" (mkRequest "search" france)
         (world_answering (Some "key") (Rejected (AxiosErr invalid_key_error))))
  = Return (mkResult [mkBlock "text" "Perplexity API error: invalid_api_key"]
                     (Some true))
  /\ exists body,
       content (mkResult [mkBlock "text" "Perplexity API error: invalid_api_key"]
                         (Some true))
       = [mkBlock "text" body].
Proof.
  split; [reflexivity |].
  apply (result_has_one_text_block "sonar-pro" (mkRequest "search" france)
           (world_answering (Some "key") (Rejected (AxiosErr invalid_key_error)))).
  reflexivity.
Defined.



(** X6: a missing API key stops nothing: the outbound call is still made, and
    its Authorization header reads [Bearer undefined]. *)
Theorem missing_api_key_still_posts
    (model : string) (args : SearchArguments) (w : World) :
  PERPLEXITY_API_KEY w = None ->
  outbound_calls (fst (call_tool_handler model (mkRequest "search" args) w))
  = [HttpPost endpoint (payload model args)
       [("Authorization", "Bearer undefined");
        ("Content-Type", "application/json")]].
Proof.
  intros Hkey; rewrite handler_outbound_calls, Hkey; reflexivity.
Qed.

Lemma missing_api_key_still_posts_witness :
  outbound_calls
    (fst (call_tool_handler "sonar" (mkRequest "search" france)
            (world_answering None (Resolved paris_data))))
  = [HttpPost endpoint (payload "sonar" france)
       [("Authorization", "Bearer undefined");
        ("Content-Type", "application/json")]].
Proof.
  apply (missing_api_key_still_posts "sonar" france
           (world_answering None (Resolved paris_data))).
  reflexivity.
Defined.

(** ** What the formatted response keeps *)

(** X7: a formatted response has exactly the two keys [content] and
    [citations], in that order, whatever else the Gateway sent; its
    [citations] is never a falsy value ([undefined], [null], [false], 0 or
    the empty string): a falsy upstream value is replaced by the empty
    sequence and any other is passed on unchanged. *)
Theorem formatted_response_shape (data formatted : JsVal) :
  formattedResponse data = Return formatted ->
  exists message_content citations,
    formatted = JObj [("content", message_content); ("citations", citations)]
    /\ keys formatted = ["content"; "citations"]
    /\ truthy citations = true
    /\ (forall upstream, js_get data "citations" = Return upstream ->
          citations = if truthy upstream then upstream else JArr []).
Proof.
  unfold formattedResponse; intros H.
  destruct (js_get data "choices") as [choices |]; [| discriminate H].
  destruct (js_get_index choices 0) as [first |]; [| discriminate H].
  destruct (js_get first "message") as [message |]; [| discriminate H].
  destruct (js_get message "content") as [mc |]; [| discriminate H].
  destruct (js_get data "citations") as [upstream |]; [| discriminate H].
  injection H as <-.
  exists mc, (js_or upstream (JArr [])).
  split; [reflexivity |]. split; [reflexivity |]. split.
  - unfold js_or; destruct (truthy upstream) eqn:Ht; [exact Ht | reflexivity].
  - intros u [= <-]; reflexivity.
Qed.

Definition null_citations_data : JsVal :=
  JObj [("id", JStr "c0ffee");
        ("choices", JArr [JObj [("message", JObj [("content", JStr "Paris")])]]);
        ("citations", JNull);
        ("usage", JObj [("total_tokens", JNum (num_of_Z 12))])].

Lemma formatted_response_shape_witness :
  formattedResponse null_citations_data
  = Return (JObj [("content", JStr "Paris"); ("citations", JArr [])])
  /\ exists message_content citations,
       JObj [("content", JStr "Paris"); ("citations", JArr [])]
       = JObj [("content", message_content); ("citations", citations)]
       /\ keys (JObj [("content", JStr "Paris"); ("citations", JArr [])])
          = ["content"; "citations"]
       /\ truthy citations = true
       /\ (forall upstream,
             js_get null_citations_data "citations" = Return upstream ->
             citations = if truthy upstream then upstream else JArr []).
Proof.
  split; [reflexivity |].
  apply (formatted_response_shape null_citations_data). reflexivity.
Defined.

(** X8: the formatted response depends only on the first choice and on the
    top-level citations: two bodies that agree on those give the same
    result (or the same fault), whatever their other choices and fields. *)
Theorem only_first_choice_matters
    (data1 data2 first : JsVal) (others1 others2 : list JsVal) :
  field "choices" data1 = Some (JArr (first :: others1)) ->
  field "choices" data2 = Some (JArr (first :: others2)) ->
  field "citations" data1 = field "citations" data2 ->
  formattedResponse data1 = formattedResponse data2.
Proof.
  intros H1 H2 Hc.
  destruct data1 as [ | | | | | | props1]; try discriminate H1.
  destruct data2 as [ | | | | | | props2]; try discriminate H2.
  simpl in H1, H2, Hc.
  unfold formattedResponse, js_get at 1 4; cbv beta iota.
  unfold js_get at 3 6.
  rewrite H1, H2, Hc; reflexivity.
Qed.

Definition two_choices_data : JsVal :=
  JObj [("model", JStr "sonar");
        ("choices", JArr [JObj [("message", JObj [("content", JStr "Paris")])];
                          JObj [("message", JObj [("content", JStr "Lyon")])]]);
        ("citations", JArr [JStr "https://a"])].

Lemma only_first_choice_matters_witness :
  formattedResponse two_choices_data = formattedResponse paris_data.
Proof.
  apply (only_first_choice_matters two_choices_data paris_data
           (JObj [("message", JObj [("content", JStr "Paris")])])
           [JObj [("message", JObj [("content", JStr "Lyon")])]] []);
    reflexivity.
Defined.

(** ** The payload *)

Lemma lookup_assign_same key v props :
  lookup key (assign key v props) = Some v.
Proof.
  induction props as [| [k x] rest IH]; simpl.
  - rewrite String.eqb_refl; reflexivity.
  - destruct (String.eqb k key) eqn:E; simpl; rewrite E; [reflexivity | exact IH].
Qed.

Lemma lookup_assign_other key other v props :
  other <> key -> lookup other (assign key v props) = lookup other props.
Proof.
  intros Hne; induction props as [| [k x] rest IH]; simpl.
  - destruct (String.eqb_spec key other) as [-> | _]; [contradiction | reflexivity].
  - destruct (String.eqb_spec k key) as [-> | Hk]; simpl.
    + destruct (String.eqb_spec key other) as [-> | _]; [contradiction | reflexivity].
    + destruct (String.eqb k other); [reflexivity | exact IH].
Qed.

(** X9: the recency filter never touches the rest of the payload: every
    field other than [search_recency_filter] is the same with a filter as
    without one; in particular the query is sent verbatim as the content of
    the single user message. *)
Theorem filter_leaves_other_fields
    (model q key : string) (filter : option string) :
  key <> "search_recency_filter" ->
  field key (payload model (mkArgs q filter))
  = field key (JObj (initial_payload model q))
  /\ field "messages" (payload model (mkArgs q filter))
     = Some (JArr [JObj [("role", JStr "user"); ("content", JStr q)]]).
Proof.
  intros Hkey.
  assert (Hall : forall k, k <> "search_recency_filter" ->
            field k (payload model (mkArgs q filter))
            = field k (JObj (initial_payload model q))).
  { intros k Hk; unfold payload; cbn [query search_recency_filter field].
    destruct filter as [f |]; [| reflexivity].
    destruct (truthy (JStr f)); [| reflexivity].
    apply lookup_assign_other, Hk. }
  split; [apply Hall, Hkey |].
  rewrite Hall by discriminate; reflexivity.
Qed.

Lemma filter_leaves_other_fields_witness :
  field "model" (payload "sonar" (mkArgs "news" (Some "week")))
  = field "model" (JObj (initial_payload "sonar" "news"))
  /\ field "messages" (payload "sonar" (mkArgs "news" (Some "week")))
     = Some (JArr [JObj [("role", JStr "user"); ("content", JStr "news")]]).
Proof.
  apply (filter_leaves_other_fields "sonar" "news" "model" (Some "week")).
  discriminate.
Defined.

(** ** The error message *)

Lemma append_empty_right a b : (a ++ b)%string = "" -> b = "".
Proof. destruct a; simpl; [auto | discriminate]. Qed.

Lemma number_to_string_not_empty n : number_to_string n <> "".
Proof.
  unfold number_to_string; destruct (num_frac n) as [| frac].
  - unfold string_of_Z; destruct (Z.to_int (num_mant n)) as [d | d]; simpl;
      [destruct d; discriminate | discriminate].
  - intros H.
    apply append_empty_right, append_empty_right in H; discriminate H.
Qed.

(** A truthy value that is not an array never prints as nothing. *)
Lemma truthy_conversion_not_empty v reason :
  truthy v = true -> is_array v = false ->
  js_to_string v = Some reason -> reason <> "".
Proof.
  destruct v as [ | | b | n | s | elems | props]; simpl;
    intros Ht Ha Hs; try discriminate.
  - subst b; injection Hs as <-; discriminate.
  - injection Hs as <-; apply number_to_string_not_empty.
  - injection Hs as <-; destruct (String.eqb_spec s ""); [discriminate | assumption].
  - destruct (lookup "toString" props); [discriminate |].
    injection Hs as <-; discriminate.
Qed.

(** X10: unless a field of the response body is an array, the reason shown
    in an error result is empty only if the transport error's own message is
    empty: an empty, absent or otherwise falsy [error] or [message] field is
    never what the caller is shown.  (An array can print as nothing: the
    empty array is truthy and converts to the empty string.) *)
Theorem error_message_not_empty (axiosError : AxiosError) (reason : string) :
  is_array (optional_get (error_body axiosError) "error") = false ->
  is_array (optional_get (error_body axiosError) "message") = false ->
  ae_message axiosError <> "" ->
  js_to_string (errorMessage axiosError) = Some reason ->
  String.eqb reason "" = false.
Proof.
  intros Herr Hmsg Hown Hreason.
  assert (Hne : reason <> "").
  { revert Hreason; unfold errorMessage; fold (error_body axiosError).
    unfold js_or.
    destruct (truthy (optional_get (error_body axiosError) "error")) eqn:He.
    - rewrite He; apply truthy_conversion_not_empty; assumption.
    - destruct (truthy (optional_get (error_body axiosError) "message")) eqn:Hm.
      + apply truthy_conversion_not_empty; assumption.
      + simpl; intros [= <-]; exact Hown. }
  destruct (String.eqb_spec reason ""); [contradiction | reflexivity].
Qed.

Example empty_array_prints_nothing :
  snd (call_tool_handler "sonar-pro" (mkRequest "search" france)
         (world_answering (Some "key") (Rejected (AxiosErr empty_array_error))))
  = Return (mkResult [mkBlock "text" "Perplexity API error: "] (Some true)).
Proof. reflexivity. Qed.

Lemma error_message_not_empty_witness :
  js_to_string (errorMessage empty_error_field) = Some "bad request"
  /\ String.eqb "bad request" "" = false.
Proof.
  split; [reflexivity |].
  apply (error_message_not_empty empty_error_field "bad request");
    [reflexivity | reflexivity | discriminate | reflexivity].
Defined.

(** X18: an [error] field that is an object, as the Gateway sends it, is
    printed as [[object Object]]: whenever the chosen message is an object
    without a [toString] key of its own, the text of the error result is
    the prefix followed by [[object Object]]. *)
Theorem object_error_prints_object_Object
    (model : string) (args : SearchArguments) (w : World)
    (axiosError : AxiosError) (props : list (string * JsVal)) :
  gateway_answer model args w = Rejected (AxiosErr axiosError) ->
  optional_get (error_body axiosError) "error" = JObj props ->
  lookup "toString" props = None ->
  snd (call_tool_handler model (mkRequest "search" args) w)
  = Return (mkResult [mkBlock "text" "Perplexity API error: [object Object]"]
                     (Some true)).
Proof.
  intros Hanswer Herr Hnone.
  rewrite call_search, (search_case_rejected _ _ _ _ Hanswer).
  unfold errorMessage; fold (error_body axiosError).
  rewrite Herr; simpl; rewrite Hnone; reflexivity.
Qed.

Lemma object_error_prints_object_Object_witness :
  snd (call_tool_handler "sonar-pro" (mkRequest "search" france)
         (world_answering (Some "key") (Rejected (AxiosErr nested_error))))
  = Return (mkResult [mkBlock "text" "Perplexity API error: [object Object]"]
                     (Some true)).
Proof.
  apply (object_error_prints_object_Object "sonar-pro" france
           (world_answering (Some "key") (Rejected (AxiosErr nested_error)))
           nested_error
           [("message", JStr "Invalid API key");
            ("type", JStr "invalid_api_key");
            ("code", JNum (num_of_Z 401))]); reflexivity.
Defined.

(** ** Reading the model from the command line *)

(** X11: the model is the argument that follows the first [--model]; what
    comes after it, a second [--model] included, is ignored. *)
Theorem first_model_flag_wins (before after : list string) (value : string) :
  ~ In "--model" before ->
  select_model (before ++ "--model" :: value :: after) = Some value.
Proof.
  intros Hnot; unfold select_model.
  rewrite (indexOf_app_first _ _ _ Hnot).
  rewrite nth_error_app2 by lia.
  replace (List.length before + 1 - List.length before)%nat with 1%nat by lia.
  reflexivity.
Qed.

Lemma first_model_flag_wins_witness :
  select_model (["node"; "index.js"] ++ "--model" :: "sonar"
                  :: ["--model"; "sonar-pro"])
  = Some "sonar".
Proof.
  apply (first_model_flag_wins ["node"; "index.js"] ["--model"; "sonar-pro"]
           "sonar").
  simpl; intros [H | [H | []]]; discriminate H.
Defined.

(** X12: a [--model] flag given as the last argument has no value: the model
    read is [undefined], and both variants fail at start-up with the
    invalid-model error before anything is set up. *)
Theorem trailing_model_flag_fails
    (w : World) (before : list string) (rest : string -> M unit) :
  ~ In "--model" before ->
  argv w = (before ++ ["--model"])%list ->
  select_model (argv w) = None
  /\ main_class w = ([LoadDotenv], Throw (PlainError invalid_model_message))
  /\ main_script rest w
     = ([LoadDotenv], Throw (PlainError invalid_model_message)).
Proof.
  intros Hnot Hargv.
  assert (Hsel : select_model (argv w) = None).
  { rewrite Hargv; unfold select_model.
    rewrite (indexOf_app_first _ _ _ Hnot).
    apply nth_error_None; rewrite length_app; simpl; lia. }
  split; [exact Hsel |]. split.
  - unfold main_class, PerplexityServer_constructor, check_model, bind,
      read_argv, emit; simpl.
    rewrite Hsel; reflexivity.
  - unfold main_script, check_model, bind, read_argv, emit; simpl.
    rewrite Hsel; reflexivity.
Qed.

Definition trailing_flag_world : World :=
  mkWorld ["node"; "index.js"; "--model"] (Some "key")
          (fun _ _ _ => Resolved paris_data).

Lemma trailing_model_flag_fails_witness :
  select_model (argv trailing_flag_world) = None
  /\ main_class trailing_flag_world
     = ([LoadDotenv], Throw (PlainError invalid_model_message))
  /\ main_script listen_after trailing_flag_world
     = ([LoadDotenv], Throw (PlainError invalid_model_message)).
Proof.
  apply (trailing_model_flag_fails trailing_flag_world ["node"; "index.js"]
           listen_after).
  - simpl; intros [H | [H | []]]; discriminate H.
  - reflexivity.
Defined.

(** X13: the constructor returns only a recognized model, the one selected
    from the command line; by then it has logged the model, created the
    server and registered the list-tools and call-tool handlers, in that
    order, and it has not connected any transport. *)
Theorem constructor_establishes_model
    (w : World) (trace : list Event) (model : string) :
  PerplexityServer_constructor w = (trace, Return model) ->
  In model recognized_models
  /\ select_model (argv w) = Some model
  /\ trace = [ConsoleError ("Using Perplexity model: " ++ model);
              NewServer "perplexity-search-server" "0.1.0";
              SetRequestHandler ListToolsRequestSchema;
              SetRequestHandler CallToolRequestSchema;
              SetOnError; OnSignal "SIGINT"].
Proof.
  unfold PerplexityServer_constructor, check_model, bind, read_argv; simpl.
  destruct (select_model (argv w)) as [m |]; simpl; [| discriminate].
  destruct (String.eqb_spec m "sonar") as [-> | _]; simpl.
  - intros [= <- <-]; repeat split; left; reflexivity.
  - destruct (String.eqb_spec m "sonar-pro") as [-> | _]; simpl; [| discriminate].
    intros [= <- <-]; repeat split; right; left; reflexivity.
Qed.

Definition sonar_world : World :=
  mkWorld ["node"; "index.js"; "--model"; "sonar"] (Some "key")
          (fun _ _ _ => Resolved paris_data).

Lemma constructor_establishes_model_witness :
  In "sonar" recognized_models
  /\ select_model (argv sonar_world) = Some "sonar"
  /\ [ConsoleError "Using Perplexity model: sonar";
      NewServer "perplexity-search-server" "0.1.0";
      SetRequestHandler ListToolsRequestSchema;
      SetRequestHandler CallToolRequestSchema;
      SetOnError; OnSignal "SIGINT"]
     = [ConsoleError ("Using Perplexity model: " ++ "sonar");
        NewServer "perplexity-search-server" "0.1.0";
        SetRequestHandler ListToolsRequestSchema;
        SetRequestHandler CallToolRequestSchema;
        SetOnError; OnSignal "SIGINT"].
Proof.
  apply (constructor_establishes_model sonar_world). reflexivity.
Defined.

(** X14: the class variant starts (connects its transport and returns)
    exactly when the selected model is recognized; the transport is
    connected only after both handlers are registered. *)
Theorem startup_succeeds_iff_recognized (w : World) :
  (exists before,
      main_class w
      = ((before ++ [Connect StdioServerTransport;
                     ConsoleError
                       "Perplexity Search MCP server running on stdio"])%list,
         Return tt)
      /\ In (SetRequestHandler ListToolsRequestSchema) before
      /\ In (SetRequestHandler CallToolRequestSchema) before)
  <-> includes recognized_models (select_model (argv w)) = true.
Proof.
  unfold main_class, PerplexityServer_constructor, check_model, bind,
    read_argv, emit; simpl.
  destruct (includes recognized_models (select_model (argv w))) eqn:Hinc; simpl.
  - split; [reflexivity | intros _].
    eexists [LoadDotenv; ConsoleError _; NewServer _ _; SetRequestHandler _;
             SetRequestHandler _; SetOnError; OnSignal _].
    split; [reflexivity |].
    split; simpl; tauto.
  - split; [| discriminate].
    intros [before [H _]]; discriminate H.
Qed.

(** ** The script variant as it stands *)

